(** * JobPulse SG search page: a shallow embedding and its properties

    The development follows [SearchPage] (the page component with the
    keyword tags and the "View Job Details" button): its state, the
    asynchronous handler [handleSearch], the render function and the
    browser event loop that drives them. *)

From Stdlib Require Import List String Ascii NArith Bool Arith Lia.
From Stdlib Require Import DecimalString.
From ExtLib Require Import Structures.Monad.
Import ListNotations.

Set Implicit Arguments.

(** ** The JavaScript platform: strings *)

Module JS.

(** A JavaScript string is a sequence of UTF-16 code units. *)
Definition code_unit := N.
Definition jsstring := list code_unit.

(** String literals of the source, all of them ASCII. *)
Definition js (s : string) : jsstring :=
  map N_of_ascii (list_ascii_of_string s).

Definition code_unit_eqb : code_unit -> code_unit -> bool := N.eqb.

(** [a === b] on strings. *)
Fixpoint strict_eq (a b : jsstring) : bool :=
  match a, b with
  | [], [] => true
  | x :: a', y :: b' => code_unit_eqb x y && strict_eq a' b'
  | _, _ => false
  end.

(** ECMAScript WhiteSpace: TAB, VT, FF, ZWNBSP and the Unicode
    space separators (category Zs). *)
Definition isWhiteSpace (c : code_unit) : bool :=
  (c =? 0x0009)%N || (c =? 0x000B)%N || (c =? 0x000C)%N || (c =? 0xFEFF)%N
  || (c =? 0x0020)%N || (c =? 0x00A0)%N || (c =? 0x1680)%N
  || ((0x2000 <=? c)%N && (c <=? 0x200A)%N)
  || (c =? 0x202F)%N || (c =? 0x205F)%N || (c =? 0x3000)%N.

(** ECMAScript LineTerminator: LF, CR, LS, PS. *)
Definition isLineTerminator (c : code_unit) : bool :=
  (c =? 0x000A)%N || (c =? 0x000D)%N || (c =? 0x2028)%N || (c =? 0x2029)%N.

Definition isTrimmed (c : code_unit) : bool :=
  isWhiteSpace c || isLineTerminator c.

Fixpoint trimStart (s : jsstring) : jsstring :=
  match s with
  | [] => []
  | c :: s' => if isTrimmed c then trimStart s' else s
  end.

Definition trimEnd (s : jsstring) : jsstring :=
  rev (trimStart (rev s)).

(** [String.prototype.trim]. *)
Definition trim (s : jsstring) : jsstring :=
  trimEnd (trimStart s).

(** ToBoolean on a string: only the empty string is falsy. *)
Definition truthy (s : jsstring) : bool :=
  match s with
  | [] => false
  | _ :: _ => true
  end.

(** Number-to-string of an array length, as a template literal
    interpolates it. *)
Definition toString (n : nat) : jsstring :=
  js (NilEmpty.string_of_uint (Nat.to_uint n)).

End JS.

Import JS.

(** ** Data model *)

(** A job posting as the backend returns it.  Every field is display
    text; [ats_keywords] may be missing. *)
Record Job := {
  id : jsstring;
  job_title : jsstring;
  employer : jsstring;
  source : jsstring;
  job_description : jsstring;
  salary_range : jsstring;
  date_posted : jsstring;
  ats_keywords : option (list jsstring);
  employer_website : jsstring
}.

(** The four [useState] cells of the component. *)
Record PageState := {
  jobTitle : jsstring;
  jobs : list Job;
  loading : bool;
  searching : bool
}.

Definition initial_state : PageState :=
  {| jobTitle := []; jobs := []; loading := false; searching := false |}.

(** ** The HTTP client *)

(** The JSON body [{ job_title: ... }]. *)
Record SearchBody := { body_job_title : jsstring }.

Inductive request :=
| POST (url : jsstring) (body : SearchBody)
| GET (url : jsstring).

(** Why an axios promise rejects. *)
Inductive error :=
| NetworkError
| TimeoutError
| BadStatus (status : N).

(** An axios response.  The client reads [data] of the fetch response
    only, as the array of postings; the response of the search call is
    never inspected. *)
Record response := { data : list Job }.

Inductive outcome :=
| Resolved (r : response)
| Rejected (e : error).

(** ** Effects and asynchronous computations *)

Inductive level := Info | Success | Error.

(** What a handler can do besides awaiting. *)
Inductive effect :=
| setJobTitle (v : jsstring)
| setJobs (l : list Job)
| setSearching (b : bool)
| toast (lvl : level) (message : jsstring)
| console_error (label : jsstring) (err : error)
| window_open (url target : jsstring).

(** The body of an [async] function: it returns, throws, performs an
    effect and goes on, or suspends on a request until the promise
    settles. *)
Inductive Async (A : Type) : Type :=
| Ret (a : A)
| Throw (e : error)
| Perform (eff : effect) (k : Async A)
| Await (rq : request) (k : outcome -> Async A).

Arguments Ret {A} a.
Arguments Throw {A} e.
Arguments Perform {A} eff k.
Arguments Await {A} rq k.

Fixpoint bind {A B} (m : Async A) (f : A -> Async B) : Async B :=
  match m with
  | Ret a => f a
  | Throw e => Throw e
  | Perform eff k => Perform eff (bind k f)
  | Await rq k => Await rq (fun o => bind (k o) f)
  end.

#[export] Instance Monad_Async : Monad Async :=
  {| ret := @Ret; Monad.bind := @bind |}.

Import MonadNotation.
Local Open Scope monad_scope.

Definition perform (eff : effect) : Async unit := Perform eff (Ret tt).

(** [await p] for the promise of a request: the response when it
    resolves, the rejection reason thrown when it rejects. *)
Definition await (rq : request) : Async response :=
  Await rq (fun o =>
    match o with
    | Resolved r => Ret r
    | Rejected e => Throw e
    end).

Fixpoint try_catch {A} (body : Async A) (handler : error -> Async A) : Async A :=
  match body with
  | Ret a => Ret a
  | Throw e => handler e
  | Perform eff k => Perform eff (try_catch k handler)
  | Await rq k => Await rq (fun o => try_catch (k o) handler)
  end.

Fixpoint finally {A} (body : Async A) (cleanup : Async unit) : Async A :=
  match body with
  | Ret a => cleanup ;; Ret a
  | Throw e => cleanup ;; Throw e
  | Perform eff k => Perform eff (finally k cleanup)
  | Await rq k => Await rq (fun o => finally (k o) cleanup)
  end.

(** [try { body } catch (error) { handler } finally { cleanup }]. *)
Definition try_catch_finally {A} (body : Async A) (handler : error -> Async A)
    (cleanup : Async unit) : Async A :=
  finally (try_catch body handler) cleanup.

Definition axios_post (url : jsstring) (body : SearchBody) : request := POST url body.
Definition axios_get (url : jsstring) : request := GET url.

(** ** The search page *)

Section SearchPage.

(** [process.env.REACT_APP_BACKEND_URL]: a string, or undefined. *)
Variable REACT_APP_BACKEND_URL : option jsstring.

Definition BACKEND_URL : jsstring :=
  match REACT_APP_BACKEND_URL with
  | Some url => url
  | None => js "undefined"
  end.

Definition API : jsstring := BACKEND_URL ++ js "/api".

(** [handleSearch], closed over the [jobTitle] of the render that
    created it. *)
Definition handleSearch (jobTitle : jsstring) : Async unit :=
  if negb (truthy (trim jobTitle)) then
    perform (toast Error (js "Please enter a job title"))
  else
    perform (setSearching true) ;;
    try_catch_finally
      (perform (toast Info (js "Searching job portals...")) ;;
       _ <- await (axios_post (API ++ js "/jobs/search")
                              {| body_job_title := jobTitle |}) ;;
       response <- await (axios_get (API ++ js "/jobs")) ;;
       perform (setJobs (data response)) ;;
       perform (toast Success
         (js "Found " ++ toString (List.length (data response)) ++ js " jobs!")))
      (fun error =>
       perform (console_error (js "Error searching:") error) ;;
       perform (toast Error (js "Failed to search jobs")))
      (perform (setSearching false)).

(** *** What the component renders

    The view keeps the text and the handlers of the elements; class
    names, icons and the glyphs that decorate the salary and the date
    are left out. *)

Record KeywordTag := { tag_key : nat; tag_text : jsstring }.

Record Card := {
  card_key : jsstring;
  card_title : jsstring;
  card_employer : jsstring;
  card_source_class : jsstring;
  card_source : jsstring;
  card_description : jsstring;
  card_salary : jsstring;
  card_date : jsstring;
  card_keywords : option (list KeywordTag);
  card_button_label : jsstring;
  card_button_onClick : Async unit
}.

Inductive ResultsPanel :=
| JobList (heading : jsstring) (cards : list Card)
| Placeholder (title hint : jsstring).

Record View := {
  input_value : jsstring;
  input_onChange : jsstring -> Async unit;
  input_onKeyPress : jsstring -> Async unit;
  button_onClick : Async unit;
  button_disabled : bool;
  button_label : jsstring;
  results : ResultsPanel
}.

(** [xs.slice(0, n)]. *)
Definition slice0 {A} (n : nat) (xs : list A) : list A := firstn n xs.

(** [xs.map((x, i) => f x i)]. *)
Fixpoint map_from {A B} (i : nat) (f : A -> nat -> B) (xs : list A) : list B :=
  match xs with
  | [] => []
  | x :: xs' => f x i :: map_from (S i) f xs'
  end.

Definition map_indexed {A B} (f : A -> nat -> B) (xs : list A) : list B :=
  map_from 0 f xs.

(** [job.ats_keywords && job.ats_keywords.length > 0 && (...)]: the
    strip of tags, rendered for a present, non-empty list only. *)
Definition render_keywords (kws : option (list jsstring)) : option (list KeywordTag) :=
  match kws with
  | None => None
  | Some l =>
      if 0 <? List.length l then
        Some (map_indexed (fun keyword i => {| tag_key := i; tag_text := keyword |})
                          (slice0 5 l))
      else None
  end.

Definition render_card (job : Job) (index : nat) : Card :=
  {| card_key := id job;
     card_title := job_title job;
     card_employer := employer job;
     card_source_class :=
       if strict_eq (source job) (js "MyCareersFuture")
       then js "bg-blue-50 text-blue-700"
       else js "bg-green-50 text-green-700";
     card_source := source job;
     card_description := job_description job;
     card_salary := salary_range job;
     card_date := date_posted job;
     card_keywords := render_keywords (ats_keywords job);
     card_button_label := js "View Job Details";
     card_button_onClick :=
       perform (window_open (employer_website job) (js "_blank")) |}.

Definition SearchPage (s : PageState) : View :=
  {| input_value := jobTitle s;
     input_onChange := fun value => perform (setJobTitle value);
     input_onKeyPress := fun key =>
       if strict_eq key (js "Enter") then handleSearch (jobTitle s) else Ret tt;
     button_onClick := handleSearch (jobTitle s);
     button_disabled := searching s;
     button_label :=
       if searching s then js "Searching..." else js "Search Jobs";
     results :=
       if 0 <? List.length (jobs s) then
         JobList (toString (List.length (jobs s)) ++ js " Jobs Found")
                 (map_indexed render_card (jobs s))
       else
         Placeholder (js "Start Your Job Search")
           (js "Enter a job title above to search across multiple job portals") |}.

(** *** The event loop

    One page, the requests in flight with the continuations that wait
    for them, and what the user and the backend have seen so far. *)

Inductive observable :=
| Notice (lvl : level) (message : jsstring)
| Logged (label : jsstring) (err : error)
| Sent (rq : request)
| Opened (url target : jsstring).

Record pending := {
  pending_request : request;
  pending_resume : outcome -> Async unit
}.

Record World := {
  page : PageState;
  trace : list observable;
  inflight : list pending
}.

Definition initial_world : World :=
  {| page := initial_state; trace := []; inflight := [] |}.

Definition update_page (f : PageState -> PageState) (w : World) : World :=
  {| page := f (page w); trace := trace w; inflight := inflight w |}.

Definition emit (o : observable) (w : World) : World :=
  {| page := page w; trace := trace w ++ [o]; inflight := inflight w |}.

Definition apply_effect (eff : effect) (w : World) : World :=
  match eff with
  | setJobTitle v =>
      update_page (fun s => {| jobTitle := v; jobs := jobs s;
                               loading := loading s; searching := searching s |}) w
  | setJobs l =>
      update_page (fun s => {| jobTitle := jobTitle s; jobs := l;
                               loading := loading s; searching := searching s |}) w
  | setSearching b =>
      update_page (fun s => {| jobTitle := jobTitle s; jobs := jobs s;
                               loading := loading s; searching := b |}) w
  | toast lvl message => emit (Notice lvl message) w
  | console_error label err => emit (Logged label err) w
  | window_open url target => emit (Opened url target) w
  end.

(** A request is sent when the handler reaches its [await]; the rest
    of the handler is parked with it. *)
Definition suspend (rq : request) (k : outcome -> Async unit) (w : World) : World :=
  {| page := page w;
     trace := trace w ++ [Sent rq];
     inflight := inflight w ++ [{| pending_request := rq; pending_resume := k |}] |}.

(** Runs a handler until it finishes or suspends.  Nobody listens to
    the promise a handler returns, so an error it throws is lost. *)
Fixpoint run (t : Async unit) (w : World) : World :=
  match t with
  | Ret _ => w
  | Throw _ => w
  | Perform eff k => run k (apply_effect eff w)
  | Await rq k => suspend rq k w
  end.

Inductive event :=
| Change (value : jsstring)
| KeyPress (key : jsstring)
| ClickSearch
| ClickDetails (index : nat)
| Settle (i : nat) (o : outcome).

Definition remove_nth {A} (i : nat) (l : list A) : list A :=
  firstn i l ++ skipn (S i) l.

Definition cards_of (v : View) : list Card :=
  match results v with
  | JobList _ cards => cards
  | Placeholder _ _ => []
  end.

(** One turn of the event loop.  A disabled button dispatches no
    click; [Settle i o] completes the [i]-th request in flight. *)
Definition step (w : World) (ev : event) : World :=
  let view := SearchPage (page w) in
  match ev with
  | Change value => run (input_onChange view value) w
  | KeyPress key => run (input_onKeyPress view key) w
  | ClickSearch =>
      if button_disabled view then w else run (button_onClick view) w
  | ClickDetails index =>
      match nth_error (cards_of view) index with
      | Some card => run (card_button_onClick card) w
      | None => w
      end
  | Settle i o =>
      match nth_error (inflight w) i with
      | Some p =>
          run (pending_resume p o)
              {| page := page w; trace := trace w;
                 inflight := remove_nth i (inflight w) |}
      | None => w
      end
  end.

Definition steps (w : World) (evs : list event) : World :=
  fold_left step evs w.

(** The requests sent so far, oldest first. *)
Fixpoint requests_sent (tr : list observable) : list request :=
  match tr with
  | [] => []
  | Sent rq :: tr' => rq :: requests_sent tr'
  | _ :: tr' => requests_sent tr'
  end.

Definition requests_inflight (w : World) : list request :=
  map pending_request (inflight w).

(** *** Searches in flight

    What the two ends of a search do to the world, and the two shapes
    of a parked search: waiting for the POST, waiting for the GET. *)

Definition search_failed (e : error) (w : World) : World :=
  apply_effect (setSearching false)
    (apply_effect (toast Error (js "Failed to search jobs"))
       (apply_effect (console_error (js "Error searching:") e) w)).

Definition search_succeeded (r : response) (w : World) : World :=
  apply_effect (setSearching false)
    (apply_effect (toast Success
         (js "Found " ++ toString (List.length (data r)) ++ js " jobs!"))
       (apply_effect (setJobs (data r)) w)).

Definition awaits_results (p : pending) : Prop :=
  pending_request p = GET (API ++ js "/jobs")
  /\ (forall r w, run (pending_resume p (Resolved r)) w = search_succeeded r w)
  /\ (forall e w, run (pending_resume p (Rejected e)) w = search_failed e w).

Definition awaits_search (p : pending) : Prop :=
  (exists q, trim q <> []
             /\ pending_request p
                = POST (API ++ js "/jobs/search") {| body_job_title := q |})
  /\ (exists k2,
        awaits_results {| pending_request := GET (API ++ js "/jobs");
                          pending_resume := k2 |}
        /\ forall r w, run (pending_resume p (Resolved r)) w
                       = suspend (GET (API ++ js "/jobs")) k2 w)
  /\ (forall e w, run (pending_resume p (Rejected e)) w = search_failed e w).

Definition parked_search (p : pending) : Prop :=
  awaits_search p \/ awaits_results p.

(** The worlds the page can be in: the mounted page, and whatever a
    sequence of events makes of it. *)
Inductive reachable : World -> Prop :=
| reachable_mount : reachable initial_world
| reachable_step (w : World) (ev : event) :
    reachable w -> reachable (step w ev).

End SearchPage.

(** The value of [e.key] for the confirm key. *)
Definition Enter : jsstring := js "Enter".

(** ** Sample data *)

Definition sample_env : option jsstring := Some (js "https://backend.example").

Definition sample_job (n : string) (kws : option (list jsstring)) : Job :=
  {| id := js n; job_title := js "Staff Nurse"; employer := js "Acme Health";
     source := js "MyCareersFuture"; job_description := js "Ward duties";
     salary_range := js "$3,000 - $4,500"; date_posted := js "2025-01-10";
     ats_keywords := kws; employer_website := js "https://jobs.example/1" |}.

Definition six_keywords : list jsstring :=
  [js "care"; js "ward"; js "shift"; js "triage"; js "charting"; js "audit"].

(** A page that already shows one posting, with a query typed in. *)
Definition sample_world (q : jsstring) : World :=
  {| page := {| jobTitle := q; jobs := [sample_job "1" None];
                loading := false; searching := false |};
     trace := [];
     inflight := [] |}.

Definition two_postings : response :=
  {| data := [sample_job "7" (Some six_keywords); sample_job "8" (Some [])] |}.

Definition no_postings : response := {| data := [] |}.

(** ** The effects of one event

    Every turn of the event loop does one of eight things to the
    world. *)

Section Effects.

Variable env : option jsstring.

(** The world once the [i]-th request in flight has been taken out. *)
Definition settled (i : nat) (w : World) : World :=
  {| page := page w; trace := trace w; inflight := remove_nth i (inflight w) |}.

Inductive step_effect (w : World) : World -> Prop :=
| nothing_happens :
    step_effect w w
| query_typed (value : jsstring) :
    step_effect w (apply_effect (setJobTitle value) w)
| submit_refused :
    trim (jobTitle (page w)) = [] ->
    step_effect w (apply_effect (toast Error (js "Please enter a job title")) w)
| search_started (k1 : outcome -> Async unit) :
    trim (jobTitle (page w)) <> [] ->
    step_effect w
      (suspend (POST (API env ++ js "/jobs/search")
                     {| body_job_title := jobTitle (page w) |}) k1
         (apply_effect (toast Info (js "Searching job portals..."))
            (apply_effect (setSearching true) w)))
| details_opened (job : Job) :
    In job (jobs (page w)) ->
    step_effect w
      (apply_effect (window_open (employer_website job) (js "_blank")) w)
| results_requested (i : nat) (k2 : outcome -> Async unit) :
    i < List.length (inflight w) ->
    step_effect w (suspend (GET (API env ++ js "/jobs")) k2 (settled i w))
| results_shown (i : nat) (r : response) :
    i < List.length (inflight w) ->
    step_effect w (search_succeeded r (settled i w))
| search_abandoned (i : nat) (e : error) :
    i < List.length (inflight w) ->
    step_effect w (search_failed e (settled i w)).

(** The requests this page has any business sending. *)
Definition search_request (rq : request) : Prop :=
  (exists q, trim q <> []
             /\ rq = POST (API env ++ js "/jobs/search") {| body_job_title := q |})
  \/ rq = GET (API env ++ js "/jobs").

End Effects.

(** *** Counting over the trace *)

Definition is_post (o : observable) : bool :=
  match o with
  | Sent (POST _ _) => true
  | _ => false
  end.

Definition is_get (o : observable) : bool :=
  match o with
  | Sent (GET _) => true
  | _ => false
  end.

Definition is_success (o : observable) : bool :=
  match o with
  | Notice Success _ => true
  | _ => false
  end.

Definition is_logged (o : observable) : bool :=
  match o with
  | Logged _ _ => true
  | _ => false
  end.

Definition count (f : observable -> bool) (tr : list observable) : nat :=
  List.length (filter f tr).

(** White space in the sense of [trim]. *)
Definition blank (s : jsstring) : bool := forallb isTrimmed s.

(** ** The plain page

    The second [SearchPage] of the source: the same state and the same
    [handleSearch], word for word, under a render that shows each
    posting without keyword tags and without the details button. *)

Module Plain.

Record Card := {
  card_key : jsstring;
  card_title : jsstring;
  card_employer : jsstring;
  card_description : jsstring;
  card_salary : jsstring;
  card_date : jsstring;
  card_source : jsstring
}.

Inductive ResultsPanel :=
| JobList (heading : jsstring) (cards : list Card)
| Placeholder (title hint : jsstring).

Record View := {
  input_value : jsstring;
  input_onChange : jsstring -> Async unit;
  input_onKeyPress : jsstring -> Async unit;
  button_onClick : Async unit;
  button_disabled : bool;
  button_label : jsstring;
  results : ResultsPanel
}.

Definition render_card (job : Job) (index : nat) : Card :=
  {| card_key := id job;
     card_title := job_title job;
     card_employer := employer job;
     card_description := job_description job;
     card_salary := salary_range job;
     card_date := date_posted job;
     card_source := source job |}.

Definition SearchPage (env : option jsstring) (s : PageState) : View :=
  {| input_value := jobTitle s;
     input_onChange := fun value => perform (setJobTitle value);
     input_onKeyPress := fun key =>
       if strict_eq key (js "Enter") then handleSearch env (jobTitle s) else Ret tt;
     button_onClick := handleSearch env (jobTitle s);
     button_disabled := searching s;
     button_label :=
       if searching s then js "Searching..." else js "Search Jobs";
     results :=
       if 0 <? List.length (jobs s) then
         JobList (toString (List.length (jobs s)) ++ js " Jobs Found")
                 (map_indexed render_card (jobs s))
       else
         Placeholder (js "Start Your Job Search")
           (js "Enter a job title above to search") |}.

End Plain.

(** What a card of the full page shows, cut down to a plain card. *)
Definition plain_card (c : Card) : Plain.Card :=
  {| Plain.card_key := card_key c;
     Plain.card_title := card_title c;
     Plain.card_employer := card_employer c;
     Plain.card_description := card_description c;
     Plain.card_salary := card_salary c;
     Plain.card_date := card_date c;
     Plain.card_source := card_source c |}.

Definition plain_panel (p : ResultsPanel) : Plain.ResultsPanel :=
  match p with
  | JobList heading cards => Plain.JobList heading (map plain_card cards)
  | Placeholder title _ =>
      Plain.Placeholder title (js "Enter a job title above to search")
  end.

(** A page with a search under way, reached from the mounted page. *)
Definition busy_world : World :=
  steps sample_env initial_world [Change (js "nurse"); KeyPress Enter].

(** Two searches under way at once. *)
Definition crowded_world : World :=
  steps sample_env initial_world
    [Change (js "nurse"); KeyPress Enter; KeyPress Enter].

(** The first search has got as far as its GET. *)
Definition fetching_world : World :=
  steps sample_env initial_world
    [Change (js "nurse"); KeyPress Enter; Settle 0 (Resolved no_postings)].

(** ** Properties *)

Arguments js : simpl never.
Arguments toString : simpl never.
Arguments trim : simpl never.
Arguments API : simpl never.

(** *** Strings *)

Lemma strict_eq_refl (a : jsstring) : strict_eq a a = true.
Proof.
  induction a as [|c a IH]; simpl; [reflexivity|].
  unfold code_unit_eqb. now rewrite N.eqb_refl, IH.
Qed.

Lemma strict_eq_true (a b : jsstring) : strict_eq a b = true -> a = b.
Proof.
  revert b; induction a as [|c a IH]; intros [|d b]; simpl; try discriminate; auto.
  intros H. apply andb_true_iff in H as [Hc Hab].
  apply N.eqb_eq in Hc. subst. f_equal. auto.
Qed.

Lemma trimStart_nil_iff (s : jsstring) :
  trimStart s = [] <-> forallb isTrimmed s = true.
Proof.
  induction s as [|c s IH]; simpl; [tauto|].
  destruct (isTrimmed c); simpl; [exact IH|].
  split; discriminate.
Qed.

(** The trimmed string is empty exactly for a string of white space and
    line terminators. *)
Lemma trim_nil_iff (s : jsstring) :
  trim s = [] <-> forallb isTrimmed s = true.
Proof.
  unfold trim, trimEnd. split.
  - intros H. apply trimStart_nil_iff.
    apply (f_equal (@rev _)) in H. rewrite rev_involutive in H. simpl in H.
    apply trimStart_nil_iff in H.
    rewrite forallb_forall in H.
    destruct (trimStart s) as [|c t] eqn:E; [reflexivity|].
    assert (Hc : isTrimmed c = true) by (apply H, in_rev; rewrite rev_involutive; left; reflexivity).
    clear H. exfalso. revert Hc E. clear.
    induction s as [|d s IH]; simpl; [discriminate|].
    destruct (isTrimmed d) eqn:Ed; [exact IH|].
    intros Hc E. inversion E; subst. congruence.
  - intros H. apply trimStart_nil_iff in H. now rewrite H.
Qed.

Lemma truthy_false (s : jsstring) : s = [] -> truthy s = false.
Proof. now intros ->. Qed.

Lemma truthy_true (s : jsstring) : s <> [] -> truthy s = true.
Proof. destruct s; [congruence|reflexivity]. Qed.

(** *** Lists of requests in flight *)

Lemma nth_error_snoc {A} (l : list A) (x : A) :
  nth_error (l ++ [x]) (List.length l) = Some x.
Proof. induction l; simpl; auto. Qed.

Lemma remove_nth_snoc {A} (l : list A) (x : A) :
  remove_nth (List.length l) (l ++ [x]) = l.
Proof.
  unfold remove_nth. induction l as [|a l IH]; simpl; [reflexivity|].
  simpl in IH. now rewrite IH.
Qed.

Lemma requests_sent_app (t1 t2 : list observable) :
  requests_sent (t1 ++ t2) = requests_sent t1 ++ requests_sent t2.
Proof.
  induction t1 as [|o t1 IH]; simpl; [reflexivity|].
  destruct o; simpl; now rewrite IH.
Qed.

(** *** Indexed maps *)

Lemma map_from_length {A B} (f : A -> nat -> B) (xs : list A) (i : nat) :
  List.length (map_from i f xs) = List.length xs.
Proof.
  revert i; induction xs as [|x xs IH]; intros i; simpl; [reflexivity|].
  now rewrite IH.
Qed.

Lemma map_from_nth_error {A B} (f : A -> nat -> B) (xs : list A) (i j : nat) :
  nth_error (map_from i f xs) j
  = option_map (fun x => f x (i + j)) (nth_error xs j).
Proof.
  revert i j; induction xs as [|x xs IH]; intros i [|j]; simpl; try reflexivity.
  - now rewrite Nat.add_0_r.
  - rewrite IH. now rewrite Nat.add_succ_r.
Qed.

Lemma map_from_tag_text (kws : list jsstring) (i : nat) :
  map tag_text
      (map_from i (fun keyword n => {| tag_key := n; tag_text := keyword |}) kws)
  = kws.
Proof.
  revert i; induction kws as [|k kws IH]; intros i; simpl; [reflexivity|].
  now rewrite IH.
Qed.

(** The tag strip of a card: the first five keywords of a list that is
    present and not empty, and no strip otherwise. *)
Lemma render_keywords_spec (kws : option (list jsstring)) :
  match kws with
  | Some (k :: ks) =>
      exists tags : list KeywordTag,
        render_keywords kws = Some tags
        /\ map tag_text tags = firstn 5 (k :: ks)
        /\ List.length tags <= 5
  | _ => render_keywords kws = None
  end.
Proof.
  destruct kws as [[|k ks]|]; try reflexivity.
  unfold render_keywords, map_indexed, slice0.
  cbn [List.length Nat.ltb Nat.leb].
  eexists. split; [reflexivity|]. split.
  - apply map_from_tag_text.
  - rewrite map_from_length. apply firstn_le_length.
Qed.

Lemma remove_nth_middle {A} (l1 l2 : list A) (x : A) :
  remove_nth (List.length l1) (l1 ++ x :: l2) = l1 ++ l2.
Proof.
  unfold remove_nth. induction l1 as [|a l1 IH]; simpl; [reflexivity|].
  simpl in IH. now rewrite IH.
Qed.

Section Properties.

Variable env : option jsstring.

(** Completing the request that was sent last. *)
Lemma settle_last (rq : request) (k : outcome -> Async unit) (w : World)
    (n : nat) (o : outcome) :
  n = List.length (inflight w) ->
  step env (suspend rq k w) (Settle n o) = run (k o) (emit (Sent rq) w).
Proof.
  intros ->. unfold step, suspend. cbn [inflight page trace].
  now rewrite nth_error_snoc, remove_nth_snoc.
Qed.

Lemma press_enter (w : World) :
  step env w (KeyPress Enter) = run (handleSearch env (jobTitle (page w))) w.
Proof.
  unfold step, SearchPage, Enter. cbn [input_onKeyPress].
  now rewrite strict_eq_refl.
Qed.

Lemma click_search (w : World) :
  searching (page w) = false ->
  step env w ClickSearch = run (handleSearch env (jobTitle (page w))) w.
Proof.
  intros H. unfold step, SearchPage. cbn [button_disabled button_onClick].
  now rewrite H.
Qed.

(** The whole course of [handleSearch] on a query that passes the
    check: what it does before the first [await], and what each of
    its two continuations does on either outcome. *)
Lemma handleSearch_stages (q : jsstring) :
  trim q <> [] ->
  exists k1 k2 : outcome -> Async unit,
    (forall w, run (handleSearch env q) w
       = suspend (POST (API env ++ js "/jobs/search") {| body_job_title := q |}) k1
           (apply_effect (toast Info (js "Searching job portals..."))
              (apply_effect (setSearching true) w)))
    /\ (forall r w, run (k1 (Resolved r)) w
          = suspend (GET (API env ++ js "/jobs")) k2 w)
    /\ (forall e w, run (k1 (Rejected e)) w
          = apply_effect (setSearching false)
              (apply_effect (toast Error (js "Failed to search jobs"))
                 (apply_effect (console_error (js "Error searching:") e) w)))
    /\ (forall r w, run (k2 (Resolved r)) w
          = apply_effect (setSearching false)
              (apply_effect (toast Success
                   (js "Found " ++ toString (List.length (data r)) ++ js " jobs!"))
                 (apply_effect (setJobs (data r)) w)))
    /\ (forall e w, run (k2 (Rejected e)) w
          = apply_effect (setSearching false)
              (apply_effect (toast Error (js "Failed to search jobs"))
                 (apply_effect (console_error (js "Error searching:") e) w))).
Proof.
  intros H. unfold handleSearch. rewrite (truthy_true H).
  cbn [negb].
  do 2 eexists. split; [intros w; cbn -[apply_effect]; reflexivity|].
  split; [intros r w; cbn -[apply_effect]; reflexivity|].
  repeat split; intros; reflexivity.
Qed.

(** A valid submit parks a search that waits for its POST. *)
Lemma handleSearch_parks (q : jsstring) :
  trim q <> [] ->
  exists k1 : outcome -> Async unit,
    awaits_search env
      {| pending_request := POST (API env ++ js "/jobs/search") {| body_job_title := q |};
         pending_resume := k1 |}
    /\ forall w, run (handleSearch env q) w
         = suspend (POST (API env ++ js "/jobs/search") {| body_job_title := q |}) k1
             (apply_effect (toast Info (js "Searching job portals..."))
                (apply_effect (setSearching true) w)).
Proof.
  intros H.
  destruct (handleSearch_stages _ H) as (k1 & k2 & Hsubmit & Hget & Hfail1 & Hok & Hfail2).
  exists k1. split; [|exact Hsubmit].
  split; [exists q; split; [exact H|reflexivity]|].
  split; [|exact Hfail1].
  exists k2. split; [|exact Hget].
  split; [reflexivity|]. split; [exact Hok|exact Hfail2].
Qed.

Lemma handleSearch_blank (q : jsstring) (w : World) :
  trim q = [] ->
  run (handleSearch env q) w
  = apply_effect (toast Error (js "Please enter a job title")) w.
Proof.
  intros H. unfold handleSearch. now rewrite (truthy_false H).
Qed.

(** C4: a query that trims to the empty string is refused at once:
    the notice "Please enter a job title" is shown, nothing is sent
    and nothing is put in flight, and the page state (the result set
    and the searching flag) stays as it was; the same holds for a
    click on the enabled search button. *)
Theorem blank_query_is_refused (w : World) :
  trim (jobTitle (page w)) = [] ->
  let w' := step env w (KeyPress Enter) in
  trace w' = trace w ++ [Notice Error (js "Please enter a job title")]
  /\ requests_sent (trace w') = requests_sent (trace w)
  /\ inflight w' = inflight w
  /\ page w' = page w
  /\ (searching (page w) = false -> step env w ClickSearch = w').
Proof.
  intros H w'. subst w'.
  assert (E : step env w (KeyPress Enter)
              = emit (Notice Error (js "Please enter a job title")) w).
  { rewrite press_enter. now apply handleSearch_blank. }
  rewrite E. cbn [emit trace inflight page].
  repeat split.
  - rewrite requests_sent_app. cbn. now rewrite app_nil_r.
  - intros Hs. rewrite (click_search _ Hs), <- press_enter. exact E.
Qed.

Lemma other_keys_do_nothing (w : World) (key : jsstring) :
  key <> Enter -> step env w (KeyPress key) = w.
Proof.
  intros H. unfold step, SearchPage. cbn [input_onKeyPress].
  destruct (strict_eq key (js "Enter")) eqn:E; [|reflexivity].
  apply strict_eq_true in E. contradiction.
Qed.

(** **** Any schedule

    Whatever the user and the backend do, the requests in flight are
    parked searches, so a settlement has one of four effects. *)

Lemma run_handleSearch_parked (q : jsstring) (w : World) :
  Forall (parked_search env) (inflight w) ->
  Forall (parked_search env) (inflight (run (handleSearch env q) w)).
Proof.
  intros F. destruct (trim q) as [|c t] eqn:E.
  - rewrite (handleSearch_blank _ _ E). exact F.
  - assert (H : trim q <> []) by (rewrite E; discriminate).
    destruct (handleSearch_parks _ H) as (k1 & Hp & Hrun).
    rewrite Hrun. cbn [suspend inflight apply_effect update_page emit].
    apply Forall_app. split; [exact F|].
    constructor; [left; exact Hp|constructor].
Qed.

Lemma nth_card (s : PageState) (index : nat) (card : Card) :
  nth_error (cards_of (SearchPage env s)) index = Some card ->
  exists job, nth_error (jobs s) index = Some job /\ card = render_card job index.
Proof.
  unfold cards_of, SearchPage. cbn [results].
  destruct (0 <? List.length (jobs s)).
  - unfold map_indexed. rewrite map_from_nth_error.
    destruct (nth_error (jobs s) index) as [job|]; [|discriminate].
    cbn [option_map Nat.add]. intros [= <-]. now exists job.
  - destruct index; discriminate.
Qed.

Lemma step_keeps_parked (w : World) (ev : event) :
  Forall (parked_search env) (inflight w) ->
  Forall (parked_search env) (inflight (step env w ev)).
Proof.
  intros F. destruct ev as [value|key| |index|i o]; unfold step.
  - exact F.
  - unfold SearchPage. cbn [input_onKeyPress].
    destruct (strict_eq key (js "Enter")); [|exact F].
    now apply run_handleSearch_parked.
  - unfold SearchPage. cbn [button_disabled button_onClick].
    destruct (searching (page w)); [exact F|].
    now apply run_handleSearch_parked.
  - destruct (nth_error (cards_of (SearchPage env (page w))) index) as [card|] eqn:E;
      [|exact F].
    apply nth_card in E as (job & _ & ->). exact F.
  - destruct (nth_error (inflight w) i) as [p|] eqn:E; [|exact F].
    destruct (nth_error_split _ _ E) as (l1 & l2 & Hl & Hi).
    rewrite Hl in F |- *. subst i. rewrite remove_nth_middle.
    apply Forall_app in F as [F1 F2]. inversion F2 as [|? ? Hp F2']; subst.
    assert (F' : Forall (parked_search env) (l1 ++ l2))
      by (apply Forall_app; now split).
    destruct Hp as [(_ & (k2 & Hk2 & Hget) & Hfail)|(_ & Hok & Hfail)];
      destruct o as [r|e]; rewrite ?Hget, ?Hok, ?Hfail; try exact F'.
    cbn [suspend inflight]. apply Forall_app. split; [exact F'|].
    constructor; [right; exact Hk2|constructor].
Qed.

Lemma reachable_parked (w : World) :
  reachable env w -> Forall (parked_search env) (inflight w).
Proof.
  induction 1 as [|w ev _ IH]; [constructor|].
  now apply step_keeps_parked.
Qed.

(** The four effects of a settlement in a reachable world. *)
Lemma settle_cases (w : World) (i : nat) (o : outcome) :
  reachable env w ->
  let rest := {| page := page w; trace := trace w;
                 inflight := remove_nth i (inflight w) |} in
  match nth_error (inflight w) i with
  | None => step env w (Settle i o) = w
  | Some p =>
      match pending_request p, o with
      | POST _ _, Resolved _ =>
          exists k2, step env w (Settle i o) = suspend (GET (API env ++ js "/jobs")) k2 rest
      | GET _, Resolved r => step env w (Settle i o) = search_succeeded r rest
      | _, Rejected e => step env w (Settle i o) = search_failed e rest
      end
  end.
Proof.
  intros R rest. subst rest. unfold step.
  destruct (nth_error (inflight w) i) as [p|] eqn:E; [|reflexivity].
  pose proof (reachable_parked R) as F.
  rewrite Forall_forall in F. specialize (F p (nth_error_In _ _ E)).
  destruct F as [((q & _ & Hrq) & (k2 & _ & Hget) & Hfail)|(Hrq & Hok & Hfail)];
    rewrite Hrq; destruct o as [r|e]; rewrite ?Hget, ?Hok, ?Hfail; eauto.
Qed.

(** X12: in any schedule the rejection of a request in flight, be it
    a POST or a GET, leaves the result set alone, clears the searching
    flag, logs the error and shows the failure notice once, and sends
    nothing. *)
Lemma rejection_in_any_schedule (w : World) (i : nat) (e : error) :
  reachable env w ->
  i < List.length (inflight w) ->
  let w' := step env w (Settle i (Rejected e)) in
  jobs (page w') = jobs (page w)
  /\ searching (page w') = false
  /\ trace w' = trace w ++ [Logged (js "Error searching:") e;
                            Notice Error (js "Failed to search jobs")]
  /\ inflight w' = remove_nth i (inflight w).
Proof.
  intros R Hi w'. subst w'.
  pose proof (settle_cases i (Rejected e) R) as C. cbv zeta in C.
  destruct (nth_error (inflight w) i) as [p|] eqn:E.
  - assert (Hs : step env w (Settle i (Rejected e))
                 = search_failed e {| page := page w; trace := trace w;
                                      inflight := remove_nth i (inflight w) |})
      by (destruct (pending_request p); exact C).
    rewrite Hs. cbn -[app]. rewrite <- app_assoc. repeat split.
  - apply nth_error_None in E. lia.
Qed.

(** Refutes [H], which says that a step that sent no GET sent one. *)
Ltac no_get H Hnil :=
  cbn -[app] in H; rewrite ?requests_sent_app in H;
  cbn [requests_sent] in H; rewrite ?app_nil_r in H;
  first [ now apply Hnil in H
        | apply app_inv_head in H; discriminate ].

(** X14: in any schedule a GET is sent by one kind of event only:
    the successful settlement of a POST in flight.  No typing, key,
    click or failure makes the page fetch results. *)
Lemma get_follows_resolved_post (w : World) (ev : event) (url : jsstring) :
  reachable env w ->
  requests_sent (trace (step env w ev)) = requests_sent (trace w) ++ [GET url] ->
  exists i r p u b,
    ev = Settle i (Resolved r)
    /\ nth_error (inflight w) i = Some p
    /\ pending_request p = POST u b.
Proof.
  intros R Hsent.
  assert (Hnil : forall l (x : request), l = l ++ [x] -> False).
  { intros l x Hx. apply (f_equal (@List.length _)) in Hx.
    rewrite length_app in Hx. simpl in Hx. lia. }
  assert (Hsubmit : forall q,
             requests_sent (trace (run (handleSearch env q) w))
             = requests_sent (trace w) ++ [GET url] -> False).
  { intros q Hq. destruct (trim q) as [|c t] eqn:E.
    - rewrite (handleSearch_blank _ _ E) in Hq. no_get Hq Hnil.
    - assert (H : trim q <> []) by (rewrite E; discriminate).
      destruct (handleSearch_parks _ H) as (k1 & _ & Hrun).
      rewrite Hrun in Hq. no_get Hq Hnil. }
  destruct ev as [value|key| |index|i o].
  - no_get Hsent Hnil.
  - destruct (list_eq_dec N.eq_dec key Enter) as [->|Hk].
    + rewrite press_enter in Hsent. now apply Hsubmit in Hsent.
    + rewrite (other_keys_do_nothing _ Hk) in Hsent. now apply Hnil in Hsent.
  - destruct (searching (page w)) eqn:Hs.
    + unfold step, SearchPage in Hsent. cbn [button_disabled] in Hsent.
      rewrite Hs in Hsent. now apply Hnil in Hsent.
    + rewrite (click_search _ Hs) in Hsent. now apply Hsubmit in Hsent.
  - unfold step in Hsent.
    destruct (nth_error (cards_of (SearchPage env (page w))) index) as [card|] eqn:E.
    + apply nth_card in E as (job & _ & ->). no_get Hsent Hnil.
    + now apply Hnil in Hsent.
  - pose proof (settle_cases i o R) as C. cbv zeta in C.
    destruct (nth_error (inflight w) i) as [p|] eqn:E.
    + destruct (pending_request p) as [u b|u] eqn:Hp, o as [r|e].
      * now exists i, r, p, u, b.
      * rewrite C in Hsent. no_get Hsent Hnil.
      * rewrite C in Hsent. no_get Hsent Hnil.
      * rewrite C in Hsent. no_get Hsent Hnil.
    + rewrite C in Hsent. now apply Hnil in Hsent.
Qed.

(** Unfolds the course of one search whose stages are named by the
    hypotheses that [handleSearch_stages] gives. *)
Ltac play Hsubmit Hget Hfail1 Hok Hfail2 :=
  rewrite ?press_enter, ?Hsubmit;
  repeat (rewrite settle_last by reflexivity;
          rewrite ?Hget, ?Hfail1, ?Hok, ?Hfail2).

(** C1: a valid submit sends the POST to <base>/api/jobs/search with
    the body { job_title: query } and nothing else; the GET to
    <base>/api/jobs is sent when, and only when, that POST has
    resolved successfully; after the GET has settled nothing more is
    sent.  So the calls are these two, in this order, and at no time
    are both of them in flight. *)
Theorem search_calls_are_sequential (w : World) (r : response) (o : outcome)
    (e : error) :
  trim (jobTitle (page w)) <> [] ->
  let post := POST ((BACKEND_URL env ++ js "/api") ++ js "/jobs/search")
                   {| body_job_title := jobTitle (page w) |} in
  let get := GET ((BACKEND_URL env ++ js "/api") ++ js "/jobs") in
  let n := List.length (inflight w) in
  let submitted := step env w (KeyPress Enter) in
  let post_done := step env submitted (Settle n (Resolved r)) in
  let get_done := step env post_done (Settle n o) in
  let post_failed := step env submitted (Settle n (Rejected e)) in
  (requests_sent (trace submitted) = requests_sent (trace w) ++ [post]
   /\ requests_inflight submitted = requests_inflight w ++ [post])
  /\ (requests_sent (trace post_done) = requests_sent (trace w) ++ [post; get]
      /\ requests_inflight post_done = requests_inflight w ++ [get])
  /\ (requests_sent (trace get_done) = requests_sent (trace w) ++ [post; get]
      /\ requests_inflight get_done = requests_inflight w)
  /\ (requests_sent (trace post_failed) = requests_sent (trace w) ++ [post]
      /\ requests_inflight post_failed = requests_inflight w).
Proof.
  intros H post get n submitted post_done get_done post_failed.
  subst get_done post_done post_failed submitted n.
  destruct (handleSearch_stages _ H) as (k1 & k2 & Hsubmit & Hget & Hfail1 & Hok & Hfail2).
  play Hsubmit Hget Hfail1 Hok Hfail2.
  destruct o as [r'|e']; rewrite ?Hok, ?Hfail2;
    unfold requests_inflight; cbn -[app requests_sent];
    rewrite !requests_sent_app, !map_app; cbn [requests_sent map app];
    rewrite <- ?app_assoc, ?app_nil_r; repeat split; reflexivity.
Qed.

Ltac tidy :=
  cbn -[app requests_sent];
  rewrite <- ?app_assoc; cbn [app].

(** C2: when both calls of a valid submit succeed, the result set
    becomes the fetched list, whatever it held before, and the notice
    "Found N jobs!" is shown with N the length of that list; for an
    empty list the notice reads "Found 0 jobs!". *)
Theorem successful_search_replaces_results (w : World) (r fetched : response) :
  trim (jobTitle (page w)) <> [] ->
  let n := List.length (inflight w) in
  let done :=
    steps env w [KeyPress Enter; Settle n (Resolved r); Settle n (Resolved fetched)] in
  jobs (page done) = data fetched
  /\ trace done
     = trace w ++
       [Notice Info (js "Searching job portals...");
        Sent (POST (API env ++ js "/jobs/search")
                   {| body_job_title := jobTitle (page w) |});
        Sent (GET (API env ++ js "/jobs"));
        Notice Success
          (js "Found " ++ toString (List.length (data fetched)) ++ js " jobs!")]
  /\ (data fetched = [] ->
      jobs (page done) = []
      /\ In (Notice Success (js "Found 0 jobs!")) (trace done)).
Proof.
  intros H n done. subst done n. cbn [steps fold_left].
  destruct (handleSearch_stages _ H) as (k1 & k2 & Hsubmit & Hget & Hfail1 & Hok & Hfail2).
  play Hsubmit Hget Hfail1 Hok Hfail2. tidy.
  split; [reflexivity|]. split; [reflexivity|].
  intros ->. split; [reflexivity|].
  apply in_or_app. right. cbn [In List.length]. do 3 right. left. reflexivity.
Qed.

(** C3: when the POST of a valid submit fails, or the POST succeeds
    and the GET fails, the result set is the one held before, the
    error is logged under "Error searching:", the notice "Failed to
    search jobs" is shown, and no further request is sent. *)
Theorem failed_search_keeps_results (w : World) (r : response) (e : error) :
  trim (jobTitle (page w)) <> [] ->
  let n := List.length (inflight w) in
  let post := POST (API env ++ js "/jobs/search")
                   {| body_job_title := jobTitle (page w) |} in
  let get := GET (API env ++ js "/jobs") in
  let post_failed := steps env w [KeyPress Enter; Settle n (Rejected e)] in
  let get_failed :=
    steps env w [KeyPress Enter; Settle n (Resolved r); Settle n (Rejected e)] in
  (jobs (page post_failed) = jobs (page w)
   /\ trace post_failed
      = trace w ++
        [Notice Info (js "Searching job portals..."); Sent post;
         Logged (js "Error searching:") e;
         Notice Error (js "Failed to search jobs")]
   /\ inflight post_failed = inflight w)
  /\ (jobs (page get_failed) = jobs (page w)
      /\ trace get_failed
         = trace w ++
           [Notice Info (js "Searching job portals..."); Sent post; Sent get;
            Logged (js "Error searching:") e;
            Notice Error (js "Failed to search jobs")]
      /\ inflight get_failed = inflight w).
Proof.
  intros H n post get post_failed get_failed.
  subst post_failed get_failed post get n. cbn [steps fold_left].
  destruct (handleSearch_stages _ H) as (k1 & k2 & Hsubmit & Hget & Hfail1 & Hok & Hfail2).
  play Hsubmit Hget Hfail1 Hok Hfail2. tidy.
  repeat split; reflexivity.
Qed.

(** C5: a valid submit sets the searching flag; the flag is still set
    while the GET is awaited, and it is cleared when the sequence
    ends, whether the POST fails, the GET fails or both succeed.  In
    every state the search button is disabled if and only if the flag
    is set. *)
Theorem searching_flag_brackets_the_search (w : World) (r : response)
    (o : outcome) (e : error) :
  trim (jobTitle (page w)) <> [] ->
  let n := List.length (inflight w) in
  let submitted := step env w (KeyPress Enter) in
  let post_done := step env submitted (Settle n (Resolved r)) in
  let get_done := step env post_done (Settle n o) in
  let post_failed := step env submitted (Settle n (Rejected e)) in
  searching (page submitted) = true
  /\ searching (page post_done) = true
  /\ searching (page get_done) = false
  /\ searching (page post_failed) = false
  /\ (forall s : PageState,
        button_disabled (SearchPage env s) = true <-> searching s = true).
Proof.
  intros H n submitted post_done get_done post_failed.
  subst get_done post_done post_failed submitted n.
  destruct (handleSearch_stages _ H) as (k1 & k2 & Hsubmit & Hget & Hfail1 & Hok & Hfail2).
  play Hsubmit Hget Hfail1 Hok Hfail2.
  destruct o as [r'|e']; rewrite ?Hok, ?Hfail2; tidy;
    repeat split; auto.
Qed.

(** C9: the body of the POST of a valid submit holds the query as it
    stands in the text field, white space at its ends included; the
    trimmed string serves the emptiness check only. *)
Theorem post_body_is_the_raw_query (w : World) :
  trim (jobTitle (page w)) <> [] ->
  let submitted := step env w (KeyPress Enter) in
  requests_sent (trace submitted)
  = requests_sent (trace w) ++
    [POST (API env ++ js "/jobs/search") {| body_job_title := jobTitle (page w) |}].
Proof.
  intros H submitted. subst submitted.
  destruct (handleSearch_stages _ H) as (k1 & k2 & Hsubmit & Hget & Hfail1 & Hok & Hfail2).
  play Hsubmit Hget Hfail1 Hok Hfail2. tidy.
  rewrite requests_sent_app. reflexivity.
Qed.

(** C6: a result set of N > 0 postings renders as the heading
    "N Jobs Found" over N cards, the i-th card showing the i-th
    posting: its title, employer, description, salary range, posting
    date and source label, a button that opens the posting's detail
    URL in a new browsing context, and, for a keyword list that is
    present and not empty, its first five keywords as tags (no tag
    strip otherwise). *)
Theorem results_render_one_card_per_posting (s : PageState) :
  jobs s <> [] ->
  exists cards : list Card,
    results (SearchPage env s)
    = JobList (toString (List.length (jobs s)) ++ js " Jobs Found") cards
    /\ List.length cards = List.length (jobs s)
    /\ forall (i : nat) (job : Job),
         nth_error (jobs s) i = Some job ->
         exists card : Card,
           nth_error cards i = Some card
           /\ card_title card = job_title job
           /\ card_employer card = employer job
           /\ card_description card = job_description job
           /\ card_salary card = salary_range job
           /\ card_date card = date_posted job
           /\ card_source card = source job
           /\ card_button_onClick card
              = perform (window_open (employer_website job) (js "_blank"))
           /\ match ats_keywords job with
              | Some (k :: ks) =>
                  exists tags : list KeywordTag,
                    card_keywords card = Some tags
                    /\ map tag_text tags = firstn 5 (k :: ks)
                    /\ List.length tags <= 5
              | _ => card_keywords card = None
              end.
Proof.
  intros H. unfold SearchPage. cbn [results].
  destruct (jobs s) as [|j0 js0] eqn:E; [congruence|].
  cbn [List.length Nat.ltb Nat.leb].
  eexists. split; [reflexivity|].
  split; [exact (map_from_length render_card (j0 :: js0) 0)|].
  intros i job Hi. unfold map_indexed.
  rewrite map_from_nth_error, Hi. cbn [option_map Nat.add].
  eexists. split; [reflexivity|].
  unfold render_card.
  cbn [card_title card_employer card_description card_salary card_date
       card_source card_button_onClick card_keywords].
  repeat (split; [reflexivity|]).
  apply render_keywords_spec.
Qed.

(** C7: an empty result set renders as the placeholder panel.  The
    panel is a function of the result set alone, so the page before
    any search and the page after a search that fetched no posting
    show the same placeholder. *)
Theorem empty_results_render_placeholder :
  (forall s : PageState,
      jobs s = [] ->
      results (SearchPage env s)
      = Placeholder (js "Start Your Job Search")
          (js "Enter a job title above to search across multiple job portals"))
  /\ (forall s s' : PageState,
        jobs s = jobs s' -> results (SearchPage env s) = results (SearchPage env s'))
  /\ (forall (w : World) (r fetched : response),
        trim (jobTitle (page w)) <> [] ->
        data fetched = [] ->
        let n := List.length (inflight w) in
        let done :=
          steps env w [KeyPress Enter; Settle n (Resolved r);
                       Settle n (Resolved fetched)] in
        results (SearchPage env (page done))
        = results (SearchPage env initial_state)).
Proof.
  split; [|split].
  - intros s H. unfold SearchPage. cbn [results]. now rewrite H.
  - intros s s' H. unfold SearchPage. cbn [results]. now rewrite H.
  - intros w r fetched H Hnone n done. subst done n. cbn [steps fold_left].
    destruct (handleSearch_stages _ H) as (k1 & k2 & Hsubmit & Hget & Hfail1 & Hok & Hfail2).
    play Hsubmit Hget Hfail1 Hok Hfail2. tidy.
    unfold SearchPage. cbn [results jobs]. now rewrite Hnone.
Qed.

(** C8: the click handler of the search button and the Enter branch
    of the key handler of the text field are the same call of
    [handleSearch] on the current query, so a click on the enabled
    button and Enter act alike in every state; a click on the
    disabled button does nothing, and nothing else guards a submit:
    Enter runs the handler whatever the searching flag says. *)
Theorem click_and_enter_run_the_same_action :
  (forall s : PageState,
      button_onClick (SearchPage env s) = handleSearch env (jobTitle s)
      /\ input_onKeyPress (SearchPage env s) Enter = handleSearch env (jobTitle s))
  /\ (forall w : World,
        searching (page w) = false ->
        step env w ClickSearch = step env w (KeyPress Enter))
  /\ (forall w : World,
        searching (page w) = true -> step env w ClickSearch = w)
  /\ (forall w : World,
        step env w (KeyPress Enter)
        = run (handleSearch env (jobTitle (page w))) w).
Proof.
  split; [|split; [|split]].
  - intros s. split; [reflexivity|].
    unfold SearchPage, Enter. cbn [input_onKeyPress]. now rewrite strict_eq_refl.
  - intros w H. now rewrite press_enter, click_search.
  - intros w H. unfold step, SearchPage. cbn [button_disabled]. now rewrite H.
  - apply press_enter.
Qed.

(** C10: while the searching flag is set a click on the button does
    nothing, but Enter in the text field still runs the submit
    action, which for a valid query sends another POST.  Typing a
    query and pressing Enter twice leaves two searches in flight at
    once. *)
Theorem enter_starts_a_second_search :
  (forall w : World,
      searching (page w) = true ->
      trim (jobTitle (page w)) <> [] ->
      let post := POST (API env ++ js "/jobs/search")
                       {| body_job_title := jobTitle (page w) |} in
      let again := step env w (KeyPress Enter) in
      step env w ClickSearch = w
      /\ requests_inflight again = requests_inflight w ++ [post]
      /\ requests_sent (trace again) = requests_sent (trace w) ++ [post])
  /\ (exists evs : list event,
        let post := POST (API env ++ js "/jobs/search")
                         {| body_job_title := js "nurse" |} in
        let first := steps env initial_world evs in
        let second := step env first (KeyPress Enter) in
        searching (page first) = true
        /\ requests_inflight first = [post]
        /\ requests_inflight second = [post; post]).
Proof.
  split.
  - intros w Hs H post again. subst again post.
    split; [unfold step, SearchPage; cbn [button_disabled]; now rewrite Hs|].
    destruct (handleSearch_stages _ H) as (k1 & k2 & Hsubmit & Hget & Hfail1 & Hok & Hfail2).
    play Hsubmit Hget Hfail1 Hok Hfail2.
    unfold requests_inflight. tidy.
    rewrite map_app, !requests_sent_app. split; reflexivity.
  - exists [Change (js "nurse"); KeyPress Enter].
    cbn -[API]. repeat split.
Qed.

End Properties.

(** ** Further properties of the page *)

(** *** White space around a query *)

Lemma blank_rev (s : jsstring) : blank (rev s) = blank s.
Proof.
  unfold blank. apply eq_true_iff_eq. rewrite !forallb_forall.
  split; intros H c Hc; apply H; [apply in_rev in Hc|apply in_rev]; tauto.
Qed.

Lemma trimStart_blank_app (a s : jsstring) :
  blank a = true -> trimStart (a ++ s) = trimStart s.
Proof.
  unfold blank. induction a as [|c a IH]; simpl; [reflexivity|].
  intros H. apply andb_true_iff in H as [Hc Ha]. now rewrite Hc, IH.
Qed.

Lemma trimStart_app_kept (s b : jsstring) :
  trimStart s <> [] -> trimStart (s ++ b) = trimStart s ++ b.
Proof.
  induction s as [|c s IH]; simpl; [congruence|].
  destruct (isTrimmed c); [exact IH|reflexivity].
Qed.

Lemma trimEnd_app_blank (s b : jsstring) :
  blank b = true -> trimEnd (s ++ b) = trimEnd s.
Proof.
  intros H. unfold trimEnd. rewrite rev_app_distr.
  rewrite trimStart_blank_app; [reflexivity|]. now rewrite blank_rev.
Qed.

(** Padding a string with white space does not change what [trim]
    makes of it. *)
Lemma trim_padding (a q b : jsstring) :
  blank a = true -> blank b = true -> trim (a ++ q ++ b) = trim q.
Proof.
  intros Ha Hb. unfold trim. rewrite trimStart_blank_app by exact Ha.
  destruct (trimStart q) as [|c t] eqn:E.
  - assert (Hq : blank q = true) by (now apply trimStart_nil_iff).
    rewrite trimStart_blank_app by exact Hq.
    assert (Eb : trimStart b = []) by (now apply trimStart_nil_iff).
    now rewrite Eb.
  - rewrite trimStart_app_kept by (rewrite E; discriminate).
    rewrite E. now apply trimEnd_app_blank.
Qed.

(** *** Lists *)

Lemma remove_nth_length {A} (l : list A) (i : nat) :
  i < List.length l -> S (List.length (remove_nth i l)) = List.length l.
Proof.
  intros H. unfold remove_nth. rewrite length_app, length_firstn, length_skipn. lia.
Qed.

Lemma snoc_not_nil {A} (l : list A) (x : A) : l ++ [x] <> [].
Proof. destruct l; discriminate. Qed.

Lemma map_from_key {A B C} (f : A -> nat -> B) (key : B -> C) (g : A -> C)
    (xs : list A) (i : nat) :
  (forall x n, key (f x n) = g x) ->
  map key (map_from i f xs) = map g xs.
Proof.
  intros H. revert i; induction xs as [|x xs IH]; intros i; simpl; [reflexivity|].
  now rewrite H, IH.
Qed.

Lemma map_from_tag_key (kws : list jsstring) (i : nat) :
  map tag_key
      (map_from i (fun keyword n => {| tag_key := n; tag_text := keyword |}) kws)
  = seq i (List.length kws).
Proof.
  revert i; induction kws as [|k kws IH]; intros i; simpl; [reflexivity|].
  now rewrite IH.
Qed.

Lemma count_app (f : observable -> bool) (t1 t2 : list observable) :
  count f (t1 ++ t2) = count f t1 + count f t2.
Proof. unfold count. now rewrite filter_app, length_app. Qed.

Section Schedules.

Variable env : option jsstring.

Lemma reachable_steps (w : World) (evs : list event) :
  reachable env w -> reachable env (steps env w evs).
Proof.
  unfold steps. revert w; induction evs as [|ev evs IH]; intros w R; simpl; [exact R|].
  apply IH. now constructor.
Qed.

Lemma enter_effect (w : World) :
  step_effect env w (run (handleSearch env (jobTitle (page w))) w).
Proof.
  destruct (trim (jobTitle (page w))) as [|c t] eqn:E.
  - rewrite handleSearch_blank by exact E. now constructor.
  - assert (H : trim (jobTitle (page w)) <> []) by (rewrite E; discriminate).
    destruct (handleSearch_parks env (jobTitle (page w)) H) as (k1 & _ & Hrun).
    rewrite Hrun. now constructor.
Qed.

(** What one event does to a world the page can be in. *)
Lemma step_effects (w : World) (ev : event) :
  reachable env w -> step_effect env w (step env w ev).
Proof.
  intros R. destruct ev as [value|key| |index|i o].
  - apply query_typed.
  - destruct (list_eq_dec N.eq_dec key Enter) as [->|Hk].
    + rewrite press_enter. apply enter_effect.
    + rewrite other_keys_do_nothing by exact Hk. constructor.
  - destruct (searching (page w)) eqn:Hs.
    + unfold step, SearchPage. cbn [button_disabled]. rewrite Hs. constructor.
    + rewrite click_search by exact Hs. apply enter_effect.
  - unfold step.
    destruct (nth_error (cards_of (SearchPage env (page w))) index) as [card|] eqn:E;
      [|constructor].
    apply nth_card in E as (job & Hjob & ->).
    apply details_opened. eapply nth_error_In. exact Hjob.
  - pose proof (@settle_cases env w i o R) as C. cbv zeta in C.
    destruct (nth_error (inflight w) i) as [p|] eqn:E.
    + assert (Hi : i < List.length (inflight w))
        by (apply nth_error_Some; congruence).
      fold (settled i w) in C.
      destruct (pending_request p), o; try destruct C as (k2 & C);
        rewrite C; now constructor.
    + rewrite C. constructor.
Qed.

(** Splits a fact about [step env w ev] into the eight effects. *)
Ltac effects w ev R :=
  let E := fresh "E" in
  let w' := fresh "w'" in
  let Hw' := fresh "Hw'" in
  pose proof (@step_effects w ev R) as E;
  remember (step env w ev) as w' eqn:Hw'; clear Hw';
  destruct E as [|value|Hblank|k1 Hvalid|job Hjob|i k2 Hi|i r Hi|i e Hi].

Lemma blank_iff_trim_nil (q : jsstring) : blank q = true <-> trim q = [].
Proof. unfold blank. symmetry. apply trim_nil_iff. Qed.

Lemma enter_posts (w : World) :
  trim (jobTitle (page w)) <> [] ->
  requests_sent (trace (step env w (KeyPress Enter)))
  = requests_sent (trace w) ++
    [POST (API env ++ js "/jobs/search") {| body_job_title := jobTitle (page w) |}].
Proof.
  intros H. rewrite press_enter.
  destruct (handleSearch_parks env (jobTitle (page w)) H) as (k1 & _ & Hrun).
  rewrite Hrun. cbn -[app]. rewrite !requests_sent_app. cbn.
  now rewrite app_nil_r.
Qed.

Lemma enter_refused (w : World) :
  trim (jobTitle (page w)) = [] ->
  step env w (KeyPress Enter)
  = apply_effect (toast Error (js "Please enter a job title")) w.
Proof.
  intros H. rewrite press_enter. now apply handleSearch_blank.
Qed.

(** X1: the check of [handleSearch] is a test for white space: a query
    made of white space and line terminators only (the empty query
    among them) gets the notice "Please enter a job title" and nothing
    else happens; a query with any other code unit in it is posted. *)
Theorem guard_is_a_white_space_test (w : World) :
  (blank (jobTitle (page w)) = true ->
   step env w (KeyPress Enter)
   = apply_effect (toast Error (js "Please enter a job title")) w)
  /\ (blank (jobTitle (page w)) = false ->
      requests_sent (trace (step env w (KeyPress Enter)))
      = requests_sent (trace w) ++
        [POST (API env ++ js "/jobs/search")
              {| body_job_title := jobTitle (page w) |}]).
Proof.
  split; intros H.
  - apply enter_refused. now apply blank_iff_trim_nil.
  - apply enter_posts. intros E. apply blank_iff_trim_nil in E. congruence.
Qed.

(** X2: white space typed around a query changes neither whether the
    query is accepted nor what is posted for it: the padded query is
    refused when its core trims to nothing, and otherwise it is posted
    whole, padding included. *)
Theorem padded_query_is_searched_as_typed (w : World) (a q b : jsstring) :
  blank a = true ->
  blank b = true ->
  jobTitle (page w) = a ++ q ++ b ->
  (trim q = [] ->
   step env w (KeyPress Enter)
   = apply_effect (toast Error (js "Please enter a job title")) w)
  /\ (trim q <> [] ->
      requests_sent (trace (step env w (KeyPress Enter)))
      = requests_sent (trace w) ++
        [POST (API env ++ js "/jobs/search")
              {| body_job_title := a ++ q ++ b |}]).
Proof.
  intros Ha Hb Hq.
  pose proof (@trim_padding a q b Ha Hb) as Ht. rewrite <- Hq in Ht.
  split; intros H.
  - apply enter_refused. congruence.
  - rewrite <- Hq. apply enter_posts. congruence.
Qed.


(** X4: whatever the user and the backend do, the page sends nothing
    but its two calls: a POST to <base>/api/jobs/search whose job title
    does not trim to the empty string, and the GET to <base>/api/jobs. *)
Theorem only_search_requests_are_sent (w : World) :
  reachable env w -> Forall (search_request env) (requests_sent (trace w)).
Proof.
  induction 1 as [|w ev R IH]; [constructor|].
  effects w ev R; cbn -[app]; rewrite ?requests_sent_app;
    cbn [requests_sent]; rewrite ?app_nil_r; try exact IH;
    apply Forall_app; split; try exact IH.
  - constructor; [|constructor]. left. now exists (jobTitle (page w)).
  - constructor; [|constructor]. now right.
Qed.

(** X5: whatever the user and the backend do, the searching flag is
    set only while some request is in flight: with nothing in flight
    the search button is enabled. *)
Theorem idle_page_is_not_searching (w : World) :
  reachable env w ->
  inflight w = [] ->
  searching (page w) = false
  /\ button_disabled (SearchPage env (page w)) = false.
Proof.
  intros R. assert (G : inflight w = [] -> searching (page w) = false).
  { induction R as [|w ev R IH]; [reflexivity|].
    effects w ev R; cbn -[app]; try exact IH; try reflexivity;
      intros H; now apply snoc_not_nil in H. }
  intros H. split; [|cbn]; now apply G.
Qed.

(** X6: nothing but the settlement of a request clears the searching
    flag: typing, any key, a click on the search button or on a details
    button leave a set flag set.  There is no timeout and no way to
    cancel. *)
Theorem only_a_settlement_clears_the_flag (w : World) (ev : event) :
  searching (page w) = true ->
  (forall i o, ev <> Settle i o) ->
  searching (page (step env w ev)) = true.
Proof.
  intros Hs Hev.
  assert (Hsub : searching (page (run (handleSearch env (jobTitle (page w))) w)) = true).
  { destruct (trim (jobTitle (page w))) as [|c t] eqn:E.
    - rewrite handleSearch_blank by exact E. exact Hs.
    - assert (H : trim (jobTitle (page w)) <> []) by (rewrite E; discriminate).
      destruct (handleSearch_parks env (jobTitle (page w)) H) as (k1 & _ & Hrun).
      now rewrite Hrun. }
  destruct ev as [value|key| |index|i o].
  - exact Hs.
  - destruct (list_eq_dec N.eq_dec key Enter) as [->|Hk].
    + now rewrite press_enter.
    + now rewrite other_keys_do_nothing.
  - unfold step, SearchPage. cbn [button_disabled]. now rewrite Hs.
  - unfold step.
    destruct (nth_error (cards_of (SearchPage env (page w))) index) as [card|] eqn:E;
      [|exact Hs].
    apply nth_card in E as (job & _ & ->). exact Hs.
  - now destruct (Hev i o).
Qed.


(** X8: every search that was started is accounted for exactly once:
    the number of POSTs sent equals the number of requests still in
    flight plus the number of success notices plus the number of
    logged errors. *)
Theorem every_search_ends_once (w : World) :
  reachable env w ->
  count is_post (trace w)
  = List.length (inflight w) + count is_success (trace w) + count is_logged (trace w).
Proof.
  induction 1 as [|w ev R IH]; [reflexivity|].
  effects w ev R; cbn -[app count];
    rewrite ?count_app, ?length_app; cbn [count filter is_post is_success is_logged List.length];
    try (pose proof (remove_nth_length (inflight w) Hi)); lia.
Qed.

(** X9: a click on the details button of the [index]-th card opens
    that posting's [employer_website] in a new browsing context and
    does nothing else; where the page shows no such card, the click
    does nothing at all. *)
Theorem details_button_opens_the_posting (w : World) (index : nat) :
  match nth_error (jobs (page w)) index with
  | Some job =>
      step env w (ClickDetails index)
      = emit (Opened (employer_website job) (js "_blank")) w
  | None => step env w (ClickDetails index) = w
  end.
Proof.
  unfold step.
  destruct (nth_error (cards_of (SearchPage env (page w))) index) as [card|] eqn:E.
  - apply nth_card in E as (job & Hjob & ->). now rewrite Hjob.
  - destruct (nth_error (jobs (page w)) index) as [job|] eqn:Hjob; [|reflexivity].
    exfalso. revert E. unfold cards_of, SearchPage. cbn [results].
    destruct (jobs (page w)) as [|j0 js0] eqn:Ej;
      [destruct index; discriminate|].
    cbn [List.length Nat.ltb Nat.leb]. unfold map_indexed.
    rewrite map_from_nth_error, Hjob. discriminate.
Qed.

(** X10: a posting with n >= 1 keywords shows min(5, n) tags: its
    first keywords in their order, keyed 0, 1, 2, ... *)
Theorem keyword_tags_are_the_first_five (job : Job) (index : nat)
    (kws : list jsstring) :
  ats_keywords job = Some kws ->
  kws <> [] ->
  exists tags : list KeywordTag,
    card_keywords (render_card job index) = Some tags
    /\ List.length tags = Nat.min 5 (List.length kws)
    /\ map tag_text tags = firstn 5 kws
    /\ map tag_key tags = seq 0 (List.length tags).
Proof.
  intros Hk Hne. unfold render_card. cbn [card_keywords]. rewrite Hk.
  unfold render_keywords, map_indexed, slice0.
  destruct kws as [|k ks]; [congruence|].
  cbn [List.length Nat.ltb Nat.leb].
  eexists. split; [reflexivity|].
  rewrite map_from_length, map_from_tag_text, map_from_tag_key.
  split; [apply length_firstn|]. split; reflexivity.
Qed.

(** X11: the cards stand in the order of the result set and are keyed
    by the postings' ids, so the keys are distinct exactly when the
    ids are. *)
Theorem cards_follow_the_result_set (s : PageState) :
  map card_key (cards_of (SearchPage env s)) = map id (jobs s)
  /\ (NoDup (map card_key (cards_of (SearchPage env s)))
      <-> NoDup (map id (jobs s))).
Proof.
  assert (E : map card_key (cards_of (SearchPage env s)) = map id (jobs s)).
  { unfold cards_of, SearchPage. cbn [results].
    destruct (jobs s) as [|j0 js0]; [reflexivity|].
    cbn [List.length Nat.ltb Nat.leb]. unfold map_indexed.
    now apply map_from_key. }
  split; [exact E|]. now rewrite E.
Qed.

(** X13: in any schedule the successful settlement of a GET in flight
    puts its list on the page, clears the searching flag, shows the
    notice with the length of that list and sends nothing: of several
    searches under way, the one whose GET resolves last decides what
    the page shows. *)
Theorem fetched_list_is_shown_in_any_schedule (w : World) (i : nat)
    (p : pending) (url : jsstring) (r : response) :
  reachable env w ->
  nth_error (inflight w) i = Some p ->
  pending_request p = GET url ->
  let w' := step env w (Settle i (Resolved r)) in
  jobs (page w') = data r
  /\ searching (page w') = false
  /\ trace w' = trace w ++
       [Notice Success
          (js "Found " ++ toString (List.length (data r)) ++ js " jobs!")]
  /\ inflight w' = remove_nth i (inflight w).
Proof.
  intros R Hp Hrq w'. subst w'.
  pose proof (@settle_cases env w i (Resolved r) R) as C. cbv zeta in C.
  rewrite Hp, Hrq in C. rewrite C. repeat split.
Qed.

(** X15: the enabled button does not mean that nothing is under way:
    with two or more requests in flight, the failure of any one of
    them enables the search button while the others are still in
    flight. *)
Theorem button_is_enabled_while_a_search_runs (w : World) (i : nat) (e : error) :
  reachable env w ->
  2 <= List.length (inflight w) ->
  i < List.length (inflight w) ->
  let w' := step env w (Settle i (Rejected e)) in
  button_disabled (SearchPage env (page w')) = false
  /\ inflight w' <> [].
Proof.
  intros R H2 Hi w'. subst w'.
  pose proof (@settle_cases env w i (Rejected e) R) as C. cbv zeta in C.
  destruct (nth_error (inflight w) i) as [p|] eqn:E.
  - assert (Hs : step env w (Settle i (Rejected e))
                 = search_failed e {| page := page w; trace := trace w;
                                      inflight := remove_nth i (inflight w) |})
      by (destruct (pending_request p); exact C).
    rewrite Hs. split; [reflexivity|].
    cbn. intros Hnil. pose proof (remove_nth_length (inflight w) Hi) as L.
    rewrite Hnil in L. simpl in L. lia.
  - apply nth_error_None in E. lia.
Qed.

Lemma map_map_from {A B C} (g : B -> C) (f : A -> nat -> B) (xs : list A) (i : nat) :
  map g (map_from i f xs) = map_from i (fun x n => g (f x n)) xs.
Proof.
  revert i; induction xs as [|x xs IH]; intros i; simpl; [reflexivity|].
  now rewrite IH.
Qed.

(** X16: the plain page and the full page are one page as far as
    behaviour goes: the same text in the field, the same handlers on
    the field and on the button, the same disabled flag and label; and
    the plain page shows the same heading over the same cards in the
    same order, each cut down to key, title, employer, description,
    salary, date and source. *)
Theorem plain_page_agrees_with_the_full_page (s : PageState) :
  Plain.input_value (Plain.SearchPage env s) = input_value (SearchPage env s)
  /\ Plain.input_onKeyPress (Plain.SearchPage env s)
     = input_onKeyPress (SearchPage env s)
  /\ Plain.button_onClick (Plain.SearchPage env s) = button_onClick (SearchPage env s)
  /\ Plain.button_disabled (Plain.SearchPage env s)
     = button_disabled (SearchPage env s)
  /\ Plain.button_label (Plain.SearchPage env s) = button_label (SearchPage env s)
  /\ Plain.results (Plain.SearchPage env s)
     = plain_panel (results (SearchPage env s)).
Proof.
  repeat (split; [reflexivity|]).
  unfold Plain.SearchPage, SearchPage. cbn [Plain.results results].
  destruct (0 <? List.length (jobs s)); [|reflexivity].
  cbn [plain_panel]. f_equal. unfold map_indexed.
  now rewrite map_map_from.
Qed.

End Schedules.

(** ** The properties on sample runs *)

Example trim_spaces : trim (js "  dev ops  ") = js "dev ops".
Proof. reflexivity. Qed.

Example trim_blank : trim (js "   ") = [].
Proof. reflexivity. Qed.

Example trim_unicode_blank : trim [0x00A0; 0x2003; 0x000A; 0xFEFF; 0x0009]%N = [].
Proof. reflexivity. Qed.

Example toString_12 : toString 12 = js "12".
Proof. reflexivity. Qed.

Example undefined_backend : API None = js "undefined/api".
Proof. reflexivity. Qed.

Example two_postings_found :
  let done := steps sample_env (sample_world (js "Software Engineer"))
                [KeyPress Enter; Settle 0 (Resolved no_postings);
                 Settle 0 (Resolved two_postings)] in
  jobs (page done) = data two_postings
  /\ In (Notice Success (js "Found 2 jobs!")) (trace done)
  /\ exists cards, results (SearchPage sample_env (page done))
                   = JobList (js "2 Jobs Found") cards
                   /\ map card_key cards = [js "7"; js "8"].
Proof.
  cbv zeta. split; [reflexivity|]. split.
  - vm_compute. do 3 right. left. reflexivity.
  - eexists. split; reflexivity.
Qed.

Example six_keywords_show_five :
  option_map (map tag_text) (render_keywords (Some six_keywords))
  = Some [js "care"; js "ward"; js "shift"; js "triage"; js "charting"].
Proof. reflexivity. Qed.

Lemma blank_query_is_refused_witness :
  trim (jobTitle (page (sample_world (js "   ")))) = []
  /\ trace (step sample_env (sample_world (js "   ")) (KeyPress Enter))
     = [Notice Error (js "Please enter a job title")].
Proof.
  assert (H : trim (jobTitle (page (sample_world (js "   ")))) = []) by reflexivity.
  split; [exact H|].
  exact (proj1 (blank_query_is_refused sample_env (sample_world (js "   ")) H)).
Defined.

Lemma search_calls_are_sequential_witness :
  trim (jobTitle (page (sample_world (js "nurse")))) <> []
  /\ requests_sent
       (trace (steps sample_env (sample_world (js "nurse"))
                 [KeyPress Enter; Settle 0 (Resolved no_postings);
                  Settle 0 (Resolved two_postings)]))
     = [POST (js "https://backend.example/api/jobs/search")
             {| body_job_title := js "nurse" |};
        GET (js "https://backend.example/api/jobs")].
Proof.
  assert (H : trim (jobTitle (page (sample_world (js "nurse")))) <> [])
    by (vm_compute; discriminate).
  split; [exact H|].
  exact (proj1 (proj1 (proj2 (proj2
    (search_calls_are_sequential sample_env (sample_world (js "nurse"))
       no_postings (Resolved two_postings) NetworkError H))))).
Defined.

Lemma successful_search_replaces_results_witness :
  trim (jobTitle (page (sample_world (js "nurse")))) <> []
  /\ jobs (page (steps sample_env (sample_world (js "nurse"))
                   [KeyPress Enter; Settle 0 (Resolved two_postings);
                    Settle 0 (Resolved no_postings)]))
     = [].
Proof.
  assert (H : trim (jobTitle (page (sample_world (js "nurse")))) <> [])
    by (vm_compute; discriminate).
  split; [exact H|].
  exact (proj1 (successful_search_replaces_results sample_env
                  (sample_world (js "nurse")) two_postings no_postings H)).
Defined.

Lemma failed_search_keeps_results_witness :
  trim (jobTitle (page (sample_world (js "nurse")))) <> []
  /\ jobs (page (steps sample_env (sample_world (js "nurse"))
                   [KeyPress Enter; Settle 0 (Resolved two_postings);
                    Settle 0 (Rejected (BadStatus 500))]))
     = [sample_job "1" None].
Proof.
  assert (H : trim (jobTitle (page (sample_world (js "nurse")))) <> [])
    by (vm_compute; discriminate).
  split; [exact H|].
  exact (proj1 (proj2 (failed_search_keeps_results sample_env
                         (sample_world (js "nurse")) two_postings
                         (BadStatus 500) H))).
Defined.

Lemma searching_flag_brackets_the_search_witness :
  trim (jobTitle (page (sample_world (js "nurse")))) <> []
  /\ searching (page (step sample_env (sample_world (js "nurse")) (KeyPress Enter)))
     = true.
Proof.
  assert (H : trim (jobTitle (page (sample_world (js "nurse")))) <> [])
    by (vm_compute; discriminate).
  split; [exact H|].
  exact (proj1 (searching_flag_brackets_the_search sample_env
                  (sample_world (js "nurse")) no_postings
                  (Rejected TimeoutError) NetworkError H)).
Defined.

Lemma results_render_one_card_per_posting_witness :
  jobs (page (sample_world [])) <> []
  /\ exists cards : list Card,
       results (SearchPage sample_env (page (sample_world [])))
       = JobList (js "1 Jobs Found") cards.
Proof.
  assert (H : jobs (page (sample_world [])) <> []) by discriminate.
  split; [exact H|].
  destruct (results_render_one_card_per_posting sample_env
              (page (sample_world [])) H) as (cards & Hr & _).
  exists cards. exact Hr.
Defined.

Lemma post_body_is_the_raw_query_witness :
  trim (jobTitle (page (sample_world (js "  nurse ")))) <> []
  /\ requests_sent
       (trace (step sample_env (sample_world (js "  nurse ")) (KeyPress Enter)))
     = [POST (js "https://backend.example/api/jobs/search")
             {| body_job_title := js "  nurse " |}].
Proof.
  assert (H : trim (jobTitle (page (sample_world (js "  nurse ")))) <> [])
    by (vm_compute; discriminate).
  split; [exact H|].
  exact (post_body_is_the_raw_query sample_env (sample_world (js "  nurse ")) H).
Defined.

Lemma empty_results_render_placeholder_witness :
  trim (jobTitle (page (sample_world (js "nurse")))) <> []
  /\ data no_postings = []
  /\ results (SearchPage sample_env
                (page (steps sample_env (sample_world (js "nurse"))
                         [KeyPress Enter; Settle 0 (Resolved two_postings);
                          Settle 0 (Resolved no_postings)])))
     = results (SearchPage sample_env initial_state).
Proof.
  assert (H : trim (jobTitle (page (sample_world (js "nurse")))) <> [])
    by (vm_compute; discriminate).
  split; [exact H|]. split; [reflexivity|].
  exact (proj2 (proj2 (empty_results_render_placeholder sample_env))
           (sample_world (js "nurse")) two_postings no_postings H eq_refl).
Defined.

Lemma click_and_enter_run_the_same_action_witness :
  searching (page (sample_world (js "nurse"))) = false
  /\ step sample_env (sample_world (js "nurse")) ClickSearch
     = step sample_env (sample_world (js "nurse")) (KeyPress Enter).
Proof.
  split; [reflexivity|].
  exact (proj1 (proj2 (click_and_enter_run_the_same_action sample_env))
           (sample_world (js "nurse")) eq_refl).
Defined.

Lemma enter_starts_a_second_search_witness :
  let busy := step sample_env (sample_world (js "nurse")) (KeyPress Enter) in
  searching (page busy) = true
  /\ trim (jobTitle (page busy)) <> []
  /\ step sample_env busy ClickSearch = busy
  /\ List.length (inflight (step sample_env busy (KeyPress Enter))) = 2.
Proof.
  cbv zeta.
  assert (H : trim (jobTitle (page (step sample_env (sample_world (js "nurse"))
                                      (KeyPress Enter)))) <> [])
    by (vm_compute; discriminate).
  split; [reflexivity|]. split; [exact H|].
  destruct (proj1 (enter_starts_a_second_search sample_env)
              (step sample_env (sample_world (js "nurse")) (KeyPress Enter))
              eq_refl H) as (Hclick & Hflight & _).
  split; [exact Hclick|].
  unfold requests_inflight in Hflight.
  apply (f_equal (@List.length _)) in Hflight.
  rewrite length_map in Hflight. rewrite Hflight. reflexivity.
Defined.

(** *** Sample runs of the further properties *)

Lemma busy_world_reachable : reachable sample_env busy_world.
Proof. unfold busy_world. apply reachable_steps, reachable_mount. Qed.

Lemma crowded_world_reachable : reachable sample_env crowded_world.
Proof. unfold crowded_world. apply reachable_steps, reachable_mount. Qed.

Lemma fetching_world_reachable : reachable sample_env fetching_world.
Proof. unfold fetching_world. apply reachable_steps, reachable_mount. Qed.

Lemma guard_is_a_white_space_test_witness :
  blank (jobTitle (page (sample_world [0x00A0; 0x0009; 0x2028]%N))) = true
  /\ trace (step sample_env (sample_world [0x00A0; 0x0009; 0x2028]%N) (KeyPress Enter))
     = [Notice Error (js "Please enter a job title")].
Proof.
  split; [reflexivity|].
  exact (f_equal (@trace)
           (proj1 (guard_is_a_white_space_test sample_env
                     (sample_world [0x00A0; 0x0009; 0x2028]%N)) eq_refl)).
Defined.

Lemma padded_query_is_searched_as_typed_witness :
  blank (js "  ") = true
  /\ blank (js " ") = true
  /\ trim (js "nurse") <> []
  /\ requests_sent
       (trace (step sample_env (sample_world (js "  nurse ")) (KeyPress Enter)))
     = [POST (js "https://backend.example/api/jobs/search")
             {| body_job_title := js "  nurse " |}].
Proof.
  assert (H : trim (js "nurse") <> []) by (vm_compute; discriminate).
  split; [reflexivity|]. split; [reflexivity|]. split; [exact H|].
  exact (proj2 (padded_query_is_searched_as_typed sample_env
                  (sample_world (js "  nurse ")) (js "  ") (js "nurse") (js " ")
                  eq_refl eq_refl eq_refl) H).
Defined.


Lemma only_search_requests_are_sent_witness :
  reachable sample_env fetching_world
  /\ Forall (search_request sample_env) (requests_sent (trace fetching_world)).
Proof.
  split; [exact fetching_world_reachable|].
  exact (only_search_requests_are_sent fetching_world_reachable).
Defined.

Lemma idle_page_is_not_searching_witness :
  let w := steps sample_env initial_world
             [Change (js "nurse"); KeyPress Enter; Settle 0 (Rejected TimeoutError)] in
  reachable sample_env w
  /\ inflight w = []
  /\ searching (page w) = false.
Proof.
  cbv zeta.
  assert (R : reachable sample_env
                (steps sample_env initial_world
                   [Change (js "nurse"); KeyPress Enter;
                    Settle 0 (Rejected TimeoutError)]))
    by (apply reachable_steps, reachable_mount).
  split; [exact R|]. split; [reflexivity|].
  exact (proj1 (idle_page_is_not_searching R eq_refl)).
Defined.

Lemma only_a_settlement_clears_the_flag_witness :
  searching (page busy_world) = true
  /\ (forall i o, KeyPress (js "Escape") <> Settle i o)
  /\ searching (page (step sample_env busy_world (KeyPress (js "Escape")))) = true.
Proof.
  assert (H : forall i o, KeyPress (js "Escape") <> Settle i o)
    by (intros i o; discriminate).
  split; [reflexivity|]. split; [exact H|].
  exact (only_a_settlement_clears_the_flag sample_env busy_world eq_refl H).
Defined.


Lemma every_search_ends_once_witness :
  reachable sample_env crowded_world
  /\ count is_post (trace crowded_world)
     = List.length (inflight crowded_world)
       + count is_success (trace crowded_world)
       + count is_logged (trace crowded_world).
Proof.
  split; [exact crowded_world_reachable|].
  exact (every_search_ends_once crowded_world_reachable).
Defined.

Lemma keyword_tags_are_the_first_five_witness :
  ats_keywords (sample_job "7" (Some six_keywords)) = Some six_keywords
  /\ six_keywords <> []
  /\ exists tags : list KeywordTag,
       card_keywords (render_card (sample_job "7" (Some six_keywords)) 0) = Some tags
       /\ List.length tags = 5.
Proof.
  assert (H : six_keywords <> []) by discriminate.
  split; [reflexivity|]. split; [exact H|].
  destruct (keyword_tags_are_the_first_five
              (sample_job "7" (Some six_keywords)) 0 eq_refl H)
    as (tags & Ht & Hn & _).
  exists tags. split; [exact Ht|exact Hn].
Defined.

Lemma rejection_in_any_schedule_witness :
  reachable sample_env busy_world
  /\ 0 < List.length (inflight busy_world)
  /\ jobs (page (step sample_env busy_world (Settle 0 (Rejected (BadStatus 502)))))
     = jobs (page busy_world).
Proof.
  assert (H : 0 < List.length (inflight busy_world)) by (vm_compute; lia).
  split; [exact busy_world_reachable|]. split; [exact H|].
  exact (proj1 (rejection_in_any_schedule (BadStatus 502) busy_world_reachable H)).
Defined.

Lemma fetched_list_is_shown_in_any_schedule_witness :
  reachable sample_env fetching_world
  /\ jobs (page (step sample_env fetching_world (Settle 0 (Resolved two_postings))))
     = data two_postings.
Proof.
  split; [exact fetching_world_reachable|].
  assert (Hp : exists p, nth_error (inflight fetching_world) 0 = Some p
                         /\ pending_request p
                            = GET (js "https://backend.example/api/jobs"))
    by (eexists; split; reflexivity).
  destruct Hp as (p & Hp & Hrq).
  exact (proj1 (fetched_list_is_shown_in_any_schedule 0 two_postings
                  fetching_world_reachable Hp Hrq)).
Defined.

Lemma get_follows_resolved_post_witness :
  reachable sample_env busy_world
  /\ requests_sent
       (trace (step sample_env busy_world (Settle 0 (Resolved no_postings))))
     = requests_sent (trace busy_world)
       ++ [GET (js "https://backend.example/api/jobs")]
  /\ exists i r p u b,
       Settle 0 (Resolved no_postings) = Settle i (Resolved r)
       /\ nth_error (inflight busy_world) i = Some p
       /\ pending_request p = POST u b.
Proof.
  assert (H : requests_sent
                (trace (step sample_env busy_world (Settle 0 (Resolved no_postings))))
              = requests_sent (trace busy_world)
                ++ [GET (js "https://backend.example/api/jobs")])
    by reflexivity.
  split; [exact busy_world_reachable|]. split; [exact H|].
  exact (@get_follows_resolved_post sample_env busy_world
           (Settle 0 (Resolved no_postings))
           (js "https://backend.example/api/jobs") busy_world_reachable H).
Defined.

Lemma button_is_enabled_while_a_search_runs_witness :
  reachable sample_env crowded_world
  /\ 2 <= List.length (inflight crowded_world)
  /\ button_disabled
       (SearchPage sample_env
          (page (step sample_env crowded_world (Settle 1 (Rejected NetworkError)))))
     = false.
Proof.
  assert (H2 : 2 <= List.length (inflight crowded_world)) by (vm_compute; lia).
  assert (H1 : 1 < List.length (inflight crowded_world)) by (vm_compute; lia).
  split; [exact crowded_world_reachable|]. split; [exact H2|].
  exact (proj1 (button_is_enabled_while_a_search_runs NetworkError
                  crowded_world_reachable H2 H1)).
Defined.
